(** * eventhub-to-timescale: [shared_code/timeseries.py]

    A shallow embedding of the payload flattener and of the value classifier,
    and the properties of the two that the specification states.

    Python values are an inductive type, a [dict] is the list of its items in
    insertion order, the [records] list that [create_record_recursive]
    appends to is the state of a small state-and-exception monad, and a
    raised [TypeError] is a result of its own that leaves that state as it
    was when the exception left the call. *)

From Stdlib Require Import List String Ascii ZArith Bool Lia.
From Stdlib Require Import Floats.SpecFloat.
Import ListNotations.
Open Scope string_scope.
Open Scope list_scope.

(** ** Python values *)

(** The values a decoded payload holds.  [VObj cls] is an instance of a
    class named [cls] that derives from none of [str], [int], [float],
    [list] and [dict] (a [tuple], a [set], a [datetime], ...). *)
#[local] Unset Elimination Schemes.
Inductive pyval : Type :=
| VNone
| VBool (b : bool)
| VInt (z : Z)
| VFloat (f : spec_float)
| VStr (s : string)
| VList (l : list pyval)
| VDict (d : list (string * pyval))
| VObj (cls : string).
#[local] Set Elimination Schemes.

(** A [dict] with [str] keys: its items, in insertion order. *)
Definition pydict : Type := list (string * pyval).

(** [payload[key]]. *)
Fixpoint getitem (d : pydict) (key : string) : option pyval :=
  match d with
  | [] => None
  | (k, v) :: rest => if String.eqb k key then Some v else getitem rest key
  end.

(** [list(payload)]: the keys in iteration order. *)
Definition keys (d : pydict) : list string := map fst d.

(** [type(v).__name__] *)
Definition type_name (v : pyval) : string :=
  match v with
  | VNone => "NoneType"
  | VBool _ => "bool"
  | VInt _ => "int"
  | VFloat _ => "float"
  | VStr _ => "str"
  | VList _ => "list"
  | VDict _ => "dict"
  | VObj cls => cls
  end.

(** [isinstance(v, str)] *)
Definition isinstance_str (v : pyval) : bool :=
  match v with VStr _ => true | _ => false end.

(** [type(v) == type(True)] *)
Definition type_is_bool (v : pyval) : bool :=
  match v with VBool _ => true | _ => false end.

(** [isinstance(v, (int, float))]: [bool] is a subclass of [int]. *)
Definition isinstance_int_float (v : pyval) : bool :=
  match v with VBool _ | VInt _ | VFloat _ => true | _ => false end.

(** [isinstance(v, dict)] *)
Definition isinstance_dict (v : pyval) : bool :=
  match v with VDict _ => true | _ => false end.

(** ** Exceptions *)

(** The two messages [get_record_type] raises a [TypeError] with.  The text
    after the colon is kept as the value it is formatted from: the list for
    [f"List is not a valid coordinate pair: {payload}"], the type name for
    [f"Unknown payload type: {type(payload).__name__}"]. *)
Inductive message : Type :=
| ListNotCoordinatePair (payload : list pyval)
| UnknownPayloadType (name : string).

Inductive exn : Type :=
| TypeError (msg : message).

(** The result of a call: a value, or a raised exception. *)
Inductive result (A : Type) : Type :=
| Ok (a : A)
| Raise (e : exn).
Arguments Ok {A} a.
Arguments Raise {A} e.

(** ** [PayloadType] *)

Inductive PayloadType : Type := NUMBER | STRING | BOOLEAN | GEOGRAPHY.

(** [PayloadType.X.value] *)
Definition value (t : PayloadType) : string :=
  match t with
  | NUMBER => "number"
  | STRING => "string"
  | BOOLEAN => "boolean"
  | GEOGRAPHY => "geography"
  end.

(** ** [get_record_type] *)

Definition get_record_type (payload : pyval) : result PayloadType :=
  if isinstance_str payload then Ok STRING
  else if type_is_bool payload then Ok BOOLEAN
  else if isinstance_int_float payload then Ok NUMBER
  else
    match payload with
    | VList l =>
        if (List.length l =? 2)%nat && forallb isinstance_int_float l
        then Ok GEOGRAPHY
        else Raise (TypeError (ListNotCoordinatePair l))
    | _ => Raise (TypeError (UnknownPayloadType (type_name payload)))
    end.

(** ** [create_atomic_record] *)

(** The dict [create_atomic_record] returns, one field per key. *)
Record atomic_record : Type := mk_record {
  timestamp : string;
  measurement_subject : string;
  measurement_publisher : string;
  measurement_of : string;
  measurement_value : pyval;
  measurement_data_type : string;
  correlation_id : option string
}.

Definition create_atomic_record
    (source_timestamp subject publisher of_ : string)
    (val : pyval) (data_type : PayloadType)
    (corr : option string) : atomic_record :=
  {| timestamp := source_timestamp;
     measurement_subject := subject;
     measurement_publisher := publisher;
     measurement_of := of_;
     measurement_value := val;
     measurement_data_type := value data_type;
     correlation_id := corr |}.

(** ** The monad of [create_record_recursive]

    The state is the content of the one list object [records] that every
    level of the recursion appends to.  A raised exception keeps the state:
    what was appended before it stays in the caller's list. *)
Definition M (A : Type) : Type :=
  list atomic_record -> result A * list atomic_record.

Definition ret {A} (a : A) : M A := fun st => (Ok a, st).

Definition bind {A B} (m : M A) (k : A -> M B) : M B :=
  fun st =>
    match m st with
    | (Ok a, st') => k a st'
    | (Raise e, st') => (Raise e, st')
    end.

(** An exception raised while an argument is evaluated. *)
Definition lift {A} (r : result A) : M A := fun st => (r, st).

(** [records.append(r)] *)
Definition append (r : atomic_record) : M unit :=
  fun st => (Ok tt, st ++ [r]).

(** [return records]: the list itself, read here as what it holds. *)
Definition return_records : M (list atomic_record) :=
  fun st => (Ok st, st).

Declare Scope py_scope.
Delimit Scope py_scope with py.
Notation "x <- m ;; k" := (bind m (fun x => k))
  (at level 61, m at next level, right associativity) : py_scope.
Notation "m ;; k" := (bind m (fun _ => k))
  (at level 61, right associativity) : py_scope.
Open Scope py_scope.

(** ** [create_record_recursive] *)

(** [key not in ignore_keys], behind [ignore_keys is None or]. *)
Definition not_ignored (ignore_keys : option (list string)) (key : string) : bool :=
  match ignore_keys with
  | None => true
  | Some ks => negb (existsb (String.eqb key) ks)
  end.

(** [key if measurement_of_prefix is None else f"{measurement_of_prefix}_{key}"] *)
Definition measurement_name (measurement_of_prefix : option string) (key : string) : string :=
  match measurement_of_prefix with
  | None => key
  | Some p => p ++ "_" ++ key
  end.

Section Flattener.

Variables (ts : string) (corr : option string) (publisher subject : string).
Variables (ignore_keys : option (list string)) (measurement_of_prefix : option string).

(** The body of [for key in payload] for a key that is not ignored, [v]
    being [payload[key]].  On a dict it is the recursive call, whose
    returned list is dropped: nothing on the empty dict, else the loop over
    its items.  On any other value it appends the record, once
    [get_record_type] has returned. *)
Fixpoint visit (key : string) (v : pyval) {struct v} : M unit :=
  match v with
  | VDict d =>
      match d with
      | [] => ret tt
      | _ =>
          (fix loop (items : pydict) : M unit :=
             match items with
             | [] => ret tt
             | (k, v') :: rest =>
                 (if not_ignored ignore_keys k then visit k v' else ret tt) ;;
                 loop rest
             end) d
      end
  | _ =>
      t <- lift (get_record_type v) ;;
      append (create_atomic_record ts subject publisher
                (measurement_name measurement_of_prefix key) v t corr)
  end.

(** [for key in payload: ...], over the items of [payload]. *)
Fixpoint for_keys (items : pydict) : M unit :=
  match items with
  | [] => ret tt
  | (k, v) :: rest =>
      (if not_ignored ignore_keys k then visit k v else ret tt) ;;
      for_keys rest
  end.

(** The call itself, on the list [records] of the state.  [payload] is
    [None] or a dict. *)
Definition create_record_recursive (payload : option pydict) : M (list atomic_record) :=
  match payload with
  | None => return_records
  | Some [] => return_records
  | Some d => for_keys d ;; return_records
  end.

End Flattener.

(** The specification's [flatten(payload, timestamp, ...)]: the call of
    [create_record_recursive] on a new, empty list [records]; its result is
    what the call returns, or the exception that leaves it. *)
Definition flatten (ts : string) (corr : option string) (publisher subject : string)
    (ignore_keys : option (list string)) (measurement_of_prefix : option string)
    (payload : option pydict) : result (list atomic_record) :=
  fst (create_record_recursive ts corr publisher subject
         ignore_keys measurement_of_prefix payload []).

(** ** Induction on values *)

Section pyval_induction.

Variable P : pyval -> Prop.
Hypothesis HNone : P VNone.
Hypothesis HBool : forall b, P (VBool b).
Hypothesis HInt : forall z, P (VInt z).
Hypothesis HFloat : forall f, P (VFloat f).
Hypothesis HStr : forall s, P (VStr s).
Hypothesis HList : forall l, Forall P l -> P (VList l).
Hypothesis HDict : forall d, Forall (fun kv => P (snd kv)) d -> P (VDict d).
Hypothesis HObj : forall cls, P (VObj cls).

Fixpoint pyval_ind (v : pyval) : P v :=
  match v with
  | VNone => HNone
  | VBool b => HBool b
  | VInt z => HInt z
  | VFloat f => HFloat f
  | VStr s => HStr s
  | VList l =>
      HList l
        ((fix all (l : list pyval) : Forall P l :=
            match l with
            | [] => Forall_nil _
            | x :: r => Forall_cons x (pyval_ind x) (all r)
            end) l)
  | VDict d =>
      HDict d
        ((fix all (d : pydict) : Forall (fun kv => P (snd kv)) d :=
            match d with
            | [] => Forall_nil _
            | kv :: r => Forall_cons kv (pyval_ind (snd kv)) (all r)
            end) d)
  | VObj cls => HObj cls
  end.

End pyval_induction.

(** ** The leaves of a payload *)

Section Leaves.

Variable ignore_keys : option (list string).

(** The leaves under [key]: the pair itself when the value is no dict, else
    the leaves of the items whose key is not ignored, item after item. *)
Fixpoint leaves_of (key : string) (v : pyval) {struct v} : list (string * pyval) :=
  match v with
  | VDict d =>
      flat_map (fun kv =>
                  if not_ignored ignore_keys (fst kv)
                  then leaves_of (fst kv) (snd kv) else []) d
  | _ => [(key, v)]
  end.

(** The leaves of a dict, in depth-first pre-order. *)
Definition leaves (d : pydict) : list (string * pyval) :=
  flat_map (fun kv =>
              if not_ignored ignore_keys (fst kv)
              then leaves_of (fst kv) (snd kv) else []) d.

(** The payload without the items whose key is ignored, at every depth. *)
Fixpoint prune_value (v : pyval) : pyval :=
  match v with
  | VDict d =>
      VDict (flat_map (fun kv =>
                         if not_ignored ignore_keys (fst kv)
                         then [(fst kv, prune_value (snd kv))] else []) d)
  | _ => v
  end.

Definition prune (d : pydict) : pydict :=
  flat_map (fun kv =>
              if not_ignored ignore_keys (fst kv)
              then [(fst kv, prune_value (snd kv))] else []) d.

End Leaves.

(** The items of the payload: [None] has none. *)
Definition payload_items (payload : option pydict) : pydict :=
  match payload with
  | None => []
  | Some d => d
  end.

Section Emitted.

Variables (ts : string) (corr : option string) (publisher subject : string).
Variable measurement_of_prefix : option string.

(** The record of a leaf whose value has type [t]. *)
Definition record_of (kv : string * pyval) (t : PayloadType) : atomic_record :=
  create_atomic_record ts subject publisher
    (measurement_name measurement_of_prefix (fst kv)) (snd kv) t corr.

(** The records of the leaves before the first one that has no type. *)
Fixpoint emitted (l : list (string * pyval)) : list atomic_record :=
  match l with
  | [] => []
  | kv :: rest =>
      match get_record_type (snd kv) with
      | Ok t => record_of kv t :: emitted rest
      | Raise _ => []
      end
  end.

End Emitted.

(** The exception of the first leaf that has no type. *)
Fixpoint failure (l : list (string * pyval)) : option exn :=
  match l with
  | [] => None
  | kv :: rest =>
      match get_record_type (snd kv) with
      | Ok _ => failure rest
      | Raise e => Some e
      end
  end.

(** How a call that would return [a] ends when the first failure of its
    leaves is [f]. *)
Definition ending {A} (f : option exn) (a : A) : result A :=
  match f with
  | None => Ok a
  | Some e => Raise e
  end.

(** A leaf whose value has a type. *)
Definition classifies (kv : string * pyval) : Prop :=
  exists t, get_record_type (snd kv) = Ok t.

(** A leaf whose value has none. *)
Definition fails (kv : string * pyval) : Prop :=
  exists e, get_record_type (snd kv) = Raise e.

(** The caller's list is as it was when the call raises. *)
Definition all_or_nothing (ts : string) (corr : option string) (publisher subject : string)
    (ignore_keys : option (list string)) (measurement_of_prefix : option string)
    (payload : option pydict) (records : list atomic_record) : Prop :=
  forall e st,
    create_record_recursive ts corr publisher subject
      ignore_keys measurement_of_prefix payload records = (Raise e, st) ->
    st = records.

(** ** The cases of the classifier, in the words of the specification *)

Definition textual (v : pyval) : bool :=
  match v with VStr _ => true | _ => false end.

Definition boolean (v : pyval) : bool :=
  match v with VBool _ => true | _ => false end.

(** An integer or a floating-point number. *)
Definition number (v : pyval) : bool :=
  match v with VInt _ | VFloat _ => true | _ => false end.

(** An ordered sequence of exactly two numbers. *)
Definition pair_of_numbers (v : pyval) : bool :=
  match v with
  | VList [x; y] => number x && number y
  | _ => false
  end.

(** The tag the specification gives, the first case that applies. *)
Definition spec_tag (v : pyval) : option PayloadType :=
  if textual v then Some STRING
  else if boolean v then Some BOOLEAN
  else if number v then Some NUMBER
  else if pair_of_numbers v then Some GEOGRAPHY
  else None.

(** A numeric element, as the coordinate test takes it: an instance of
    [int] or of [float], [bool] being a subclass of [int]. *)
Definition numeric (v : pyval) : Prop := isinstance_int_float v = true.

(** A list of exactly two numeric elements. *)
Definition coordinate_pair (l : list pyval) : Prop :=
  exists x y, l = [x; y] /\ numeric x /\ numeric y.

(** A value that is no text, boolean, number or list. *)
Definition other_shape (v : pyval) : Prop :=
  v = VNone \/ (exists d, v = VDict d) \/ (exists cls, v = VObj cls).

(** A boolean, an integer or a float. *)
Definition bool_int_or_float (v : pyval) : Prop :=
  (exists b, v = VBool b) \/ (exists z, v = VInt z) \/ (exists f, v = VFloat f).

(** ** The values of the examples *)

(** The floats, as binary64 values. *)
Definition float_3_14 : spec_float := S754_finite false 7070651414971679 (-51).
Definition float_1_0 : spec_float := S754_finite false 4503599627370496 (-52).
Definition float_2_0 : spec_float := S754_finite false 4503599627370496 (-51).
Definition float_1_5 : spec_float := S754_finite false 6755399441055744 (-52).

(** [{"a": 1, "b": {"c": 2, "d": 3}}] *)
Definition payload_a_b_cd : pydict :=
  [("a", VInt 1); ("b", VDict [("c", VInt 2); ("d", VInt 3)])].

(** [{"loc": {"x": 1}}] *)
Definition payload_loc_x : pydict := [("loc", VDict [("x", VInt 1)])].

(** [{"a": 1, "b": None}] *)
Definition payload_a_none : pydict := [("a", VInt 1); ("b", VNone)].

(** [{"a": 1, "skip": {"b": None}, "n": {"skip": 2, "c": "x"}}] *)
Definition payload_skip : pydict :=
  [("a", VInt 1); ("skip", VDict [("b", VNone)]);
   ("n", VDict [("skip", VInt 2); ("c", VStr "x")])].

(** A record that a list holds before a call. *)
Definition old_record : atomic_record :=
  create_atomic_record "t0" "s0" "p0" "old" (VBool true) BOOLEAN None.

(** ** Comparing the lists of two calls *)

(** [l1] is [l2] with some of its elements left out, the others in their
    order. *)
Inductive subseq {A : Type} : list A -> list A -> Prop :=
| subseq_nil : subseq [] []
| subseq_skip (x : A) (l1 l2 : list A) : subseq l1 l2 -> subseq l1 (x :: l2)
| subseq_keep (x : A) (l1 l2 : list A) : subseq l1 l2 -> subseq (x :: l1) (x :: l2).

(** The record [r] under the name that the prefix [p] gives to its name. *)
Definition with_prefix (p : string) (r : atomic_record) : atomic_record :=
  {| timestamp := timestamp r;
     measurement_subject := measurement_subject r;
     measurement_publisher := measurement_publisher r;
     measurement_of := p ++ "_" ++ measurement_of r;
     measurement_value := measurement_value r;
     measurement_data_type := measurement_data_type r;
     correlation_id := correlation_id r |}.

(** The shape of a value that [get_record_type] gives the tag [t]. *)
Definition shape_of (t : PayloadType) (v : pyval) : Prop :=
  match t with
  | STRING => exists s, v = VStr s
  | BOOLEAN => exists b, v = VBool b
  | NUMBER => (exists z, v = VInt z) \/ (exists f, v = VFloat f)
  | GEOGRAPHY => exists x y, v = VList [x; y] /\ bool_int_or_float x /\ bool_int_or_float y
  end.

(** [{"geo": {"lat": 1.5, "on": True}, "tags": {}, "name": "abc"}] *)
Definition payload_geo : pydict :=
  [("geo", VDict [("lat", VFloat float_1_5); ("on", VBool true)]);
   ("tags", VDict []);
   ("name", VStr "abc")].

(** ** Iterating a dict

    The loop reads [payload[key]] for each key it iterates; the keys of a
    dict are distinct, so that is the value of the item the key comes
    from. *)
Lemma getitem_items (d : pydict) :
  NoDup (keys d) ->
  forall k v, In (k, v) d -> getitem d k = Some v.
Proof.
  induction d as [|[k0 v0] d IH]; intros Hnd k v Hin; [contradiction|].
  cbn in Hnd. inversion Hnd as [|? ? Hnotin Hnd']; subst.
  cbn. destruct Hin as [Heq | Hin].
  - inversion Heq; subst. rewrite String.eqb_refl. reflexivity.
  - destruct (String.eqb_spec k0 k) as [->|_].
    + exfalso. apply Hnotin. unfold keys.
      change k with (fst (k, v)). apply in_map. exact Hin.
    + apply IH; assumption.
Qed.

(** ** Leaves, one after another *)

Lemma failure_app (l1 l2 : list (string * pyval)) :
  failure (l1 ++ l2) =
  match failure l1 with
  | Some e => Some e
  | None => failure l2
  end.
Proof.
  induction l1 as [|kv l1 IH]; cbn; [reflexivity|].
  destruct (get_record_type (snd kv)); [exact IH | reflexivity].
Qed.

Lemma failure_none (l : list (string * pyval)) :
  failure l = None <-> Forall classifies l.
Proof.
  induction l as [|kv l IH]; cbn.
  - split; [constructor | reflexivity].
  - destruct (get_record_type (snd kv)) as [t|e] eqn:E.
    + rewrite IH. split.
      * intros H. constructor; [exists t; exact E | exact H].
      * intros H. inversion H; assumption.
    + split; [discriminate|].
      intros H. inversion H as [|? ? [t Ht] _]; subst. congruence.
Qed.

Lemma failure_first (l1 l2 : list (string * pyval)) (k : string) (v : pyval) (e : exn) :
  Forall classifies l1 -> get_record_type v = Raise e ->
  failure (l1 ++ (k, v) :: l2) = Some e.
Proof.
  intros H1 Hv. rewrite failure_app.
  apply failure_none in H1. rewrite H1. cbn. rewrite Hv. reflexivity.
Qed.

Lemma fails_first (l : list (string * pyval)) :
  Exists fails l ->
  exists l1 k v l2 e,
    l = l1 ++ (k, v) :: l2 /\ Forall classifies l1 /\ get_record_type v = Raise e.
Proof.
  induction l as [|[k v] l IH]; intros H; [inversion H|].
  destruct (get_record_type v) as [t|e] eqn:E.
  - inversion H as [? ? [e He] | ? ? Hl]; subst; [cbn in He; congruence|].
    destruct (IH Hl) as (l1 & k' & v' & l2 & e & -> & H1 & Hv).
    exists ((k, v) :: l1), k', v', l2, e. repeat split; try assumption.
    constructor; [exists t; exact E | exact H1].
  - exists [], k, v, l, e. repeat split; [constructor | exact E].
Qed.

Lemma measurement_name_inj (p : option string) (k1 k2 : string) :
  measurement_name p k1 = measurement_name p k2 -> k1 = k2.
Proof.
  destruct p as [p|]; cbn; [|trivial].
  induction p as [|c p IH]; cbn; intros H; inversion H; auto.
Qed.

Lemma not_ignored_In (ks : list string) (k : string) :
  In k ks -> not_ignored (Some ks) k = false.
Proof.
  intros H. cbn. apply negb_false_iff, existsb_exists.
  exists k. split; [exact H | apply String.eqb_refl].
Qed.

Section Emitted_facts.

Variables (ts : string) (corr : option string) (publisher subject : string).
Variable measurement_of_prefix : option string.

Abbreviation emitted_ := (emitted ts corr publisher subject measurement_of_prefix).

Lemma emitted_app (l1 l2 : list (string * pyval)) :
  emitted_ (l1 ++ l2) =
  match failure l1 with
  | Some _ => emitted_ l1
  | None => emitted_ l1 ++ emitted_ l2
  end.
Proof.
  induction l1 as [|kv l1 IH]; cbn; [reflexivity|].
  destruct (get_record_type (snd kv)); [|reflexivity].
  rewrite IH. destruct (failure l1); reflexivity.
Qed.

(** With no failure there is one record for each leaf, in the order of the
    leaves. *)
Lemma emitted_complete (l : list (string * pyval)) :
  failure l = None ->
  map (fun r => (measurement_of r, measurement_value r)) (emitted_ l) =
  map (fun kv => (measurement_name measurement_of_prefix (fst kv), snd kv)) l.
Proof.
  induction l as [|kv l IH]; cbn; [reflexivity|].
  destruct (get_record_type (snd kv)); [|discriminate].
  intros H. cbn. rewrite (IH H). reflexivity.
Qed.

Lemma emitted_first (l1 l2 : list (string * pyval)) (k : string) (v : pyval) (e : exn) :
  Forall classifies l1 -> get_record_type v = Raise e ->
  emitted_ (l1 ++ (k, v) :: l2) = emitted_ l1.
Proof.
  intros H1 Hv. rewrite emitted_app.
  apply failure_none in H1. rewrite H1. cbn. rewrite Hv. apply app_nil_r.
Qed.

Lemma emitted_metadata (l : list (string * pyval)) :
  Forall (fun r => timestamp r = ts /\
                   measurement_publisher r = publisher /\
                   measurement_subject r = subject /\
                   correlation_id r = corr) (emitted_ l).
Proof.
  induction l as [|kv l IH]; cbn; [constructor|].
  destruct (get_record_type (snd kv)); constructor; [|exact IH].
  cbn. repeat split.
Qed.

Lemma emitted_names (l : list (string * pyval)) :
  Forall (fun r => exists kv, In kv l /\
                     measurement_of r = measurement_name measurement_of_prefix (fst kv))
         (emitted_ l).
Proof.
  induction l as [|kv l IH]; cbn; [constructor|].
  destruct (get_record_type (snd kv)); constructor.
  - exists kv. split; [left; reflexivity | reflexivity].
  - apply Forall_impl with (2 := IH).
    intros r (kv' & Hin & Hr). exists kv'. split; [right; exact Hin | exact Hr].
Qed.

End Emitted_facts.

(** ** The call, leaf by leaf *)

Section Run.

Variables (ts : string) (corr : option string) (publisher subject : string).
Variables (ignore_keys : option (list string)) (measurement_of_prefix : option string).

Abbreviation emitted' := (emitted ts corr publisher subject measurement_of_prefix).
Abbreviation visit' := (visit ts corr publisher subject ignore_keys measurement_of_prefix).
Abbreviation for_keys' := (for_keys ts corr publisher subject ignore_keys measurement_of_prefix).
Abbreviation run := (create_record_recursive ts corr publisher subject
                       ignore_keys measurement_of_prefix).

(** The body on a nested dict is the loop over its items. *)
Lemma visit_for_keys (key : string) (d : pydict) :
  visit' key (VDict d) = for_keys' d.
Proof.
  destruct d as [|kv d]; [reflexivity|].
  change (visit' key (VDict (kv :: d)))
    with ((fix loop (items : pydict) : M unit :=
             match items with
             | [] => ret tt
             | (k, v') :: rest =>
                 (if not_ignored ignore_keys k then visit' k v' else ret tt) ;;
                 loop rest
             end) (kv :: d)).
  generalize (kv :: d). intros l.
  induction l as [|[k v] l IH]; [reflexivity|].
  cbn [for_keys]. rewrite <- IH. reflexivity.
Qed.

(** On an empty dict the loop does nothing, as the early return. *)
Lemma run_items (payload : option pydict) (st : list atomic_record) :
  run payload st = (for_keys' (payload_items payload) ;; return_records) st.
Proof. destruct payload as [[|kv d]|]; reflexivity. Qed.

(** The body on a nested dict is the call of the function on that dict,
    the list it returns being dropped. *)
Lemma visit_dict (key : string) (d : pydict) (st : list atomic_record) :
  visit' key (VDict d) st = (run (Some d) ;; ret tt) st.
Proof.
  rewrite visit_for_keys. unfold bind at 1. rewrite run_items.
  cbn [payload_items]. unfold bind, return_records, ret.
  destruct (for_keys' d st) as [[[]|e] st']; reflexivity.
Qed.

Lemma visit_leaf (key : string) (v : pyval) :
  isinstance_dict v = false ->
  visit' key v =
  (t <- lift (get_record_type v) ;;
   append (create_atomic_record ts subject publisher
             (measurement_name measurement_of_prefix key) v t corr)).
Proof. destruct v; intros H; try reflexivity. discriminate H. Qed.

Lemma leaves_of_leaf (key : string) (v : pyval) :
  isinstance_dict v = false -> leaves_of ignore_keys key v = [(key, v)].
Proof. destruct v; intros H; try reflexivity. discriminate H. Qed.

Lemma leaves_of_dict (key : string) (d : pydict) :
  leaves_of ignore_keys key (VDict d) = leaves ignore_keys d.
Proof. reflexivity. Qed.

Lemma leaves_cons (k : string) (v : pyval) (d : pydict) :
  leaves ignore_keys ((k, v) :: d) =
  (if not_ignored ignore_keys k then leaves_of ignore_keys k v else [])
    ++ leaves ignore_keys d.
Proof. reflexivity. Qed.

(** The loop, when the body of each key does what its leaves say. *)
Lemma for_keys_leaves (d : pydict) :
  Forall (fun kv => forall st,
            visit' (fst kv) (snd kv) st =
            (ending (failure (leaves_of ignore_keys (fst kv) (snd kv))) tt,
             st ++ emitted' (leaves_of ignore_keys (fst kv) (snd kv)))) d ->
  forall st,
    for_keys' d st =
    (ending (failure (leaves ignore_keys d)) tt, st ++ emitted' (leaves ignore_keys d)).
Proof.
  induction 1 as [|[k v] d Hkv _ IH]; intros st.
  - cbn. rewrite app_nil_r. reflexivity.
  - cbn [for_keys]. rewrite leaves_cons, failure_app, emitted_app.
    unfold bind. cbn [fst snd] in Hkv.
    destruct (not_ignored ignore_keys k).
    + rewrite Hkv.
      destruct (failure (leaves_of ignore_keys k v)) as [e|]; cbn [ending].
      * reflexivity.
      * rewrite IH, app_assoc. reflexivity.
    + cbn. rewrite IH. reflexivity.
Qed.

Lemma visit_run (v : pyval) :
  forall key st,
    visit' key v st =
    (ending (failure (leaves_of ignore_keys key v)) tt,
     st ++ emitted' (leaves_of ignore_keys key v)).
Proof.
  induction v as [| b | z | f | s | l _ | d IH | cls] using pyval_ind; intros key st;
    try (rewrite visit_leaf, leaves_of_leaf by reflexivity;
         unfold bind, lift, append; cbn [emitted failure snd];
         match goal with
         | |- context [get_record_type ?x] => destruct (get_record_type x)
         end; cbn [ending emitted failure]; rewrite ?app_nil_r; reflexivity).
  rewrite visit_for_keys, leaves_of_dict.
  apply for_keys_leaves.
  apply Forall_impl with (2 := IH). intros kv H st'. apply H.
Qed.

(** The whole call: it ends as the first leaf without a type says, and the
    list [records] has received the records of the leaves before it. *)
Lemma create_record_recursive_run (payload : option pydict) (records : list atomic_record) :
  run payload records =
  (ending (failure (leaves ignore_keys (payload_items payload)))
     (records ++ emitted' (leaves ignore_keys (payload_items payload))),
   records ++ emitted' (leaves ignore_keys (payload_items payload))).
Proof.
  rewrite run_items. unfold bind. rewrite for_keys_leaves.
  - destruct (failure _); reflexivity.
  - apply Forall_forall. intros kv _ st. apply visit_run.
Qed.

Lemma flatten_run (payload : option pydict) :
  flatten ts corr publisher subject ignore_keys measurement_of_prefix payload =
  ending (failure (leaves ignore_keys (payload_items payload)))
    (emitted' (leaves ignore_keys (payload_items payload))).
Proof. unfold flatten. rewrite create_record_recursive_run. reflexivity. Qed.

Lemma flatten_Ok (payload : option pydict) (rs : list atomic_record) :
  flatten ts corr publisher subject ignore_keys measurement_of_prefix payload = Ok rs ->
  failure (leaves ignore_keys (payload_items payload)) = None /\
  rs = emitted' (leaves ignore_keys (payload_items payload)).
Proof.
  rewrite flatten_run. destruct (failure _); [discriminate|].
  intros H. inversion H. split; reflexivity.
Qed.

(** No leaf has an ignored key. *)
Lemma leaves_of_not_ignored (v : pyval) :
  forall key, not_ignored ignore_keys key = true ->
    Forall (fun kv => not_ignored ignore_keys (fst kv) = true)
           (leaves_of ignore_keys key v).
Proof.
  induction v as [| b | z | f | s | l _ | d IH | cls] using pyval_ind; intros key Hkey;
    try (constructor; [exact Hkey | constructor]).
  cbn [leaves_of].
  induction IH as [|[k v] d Hkv _ IHd]; cbn; [constructor|].
  apply Forall_app. split; [|exact IHd].
  destruct (not_ignored ignore_keys k) eqn:E; [|constructor].
  apply Hkv. exact E.
Qed.

Lemma leaves_not_ignored (d : pydict) :
  Forall (fun kv => not_ignored ignore_keys (fst kv) = true) (leaves ignore_keys d).
Proof.
  unfold leaves. induction d as [|[k v] d IH]; cbn; [constructor|].
  apply Forall_app. split; [|exact IH].
  destruct (not_ignored ignore_keys k) eqn:E; [|constructor].
  apply leaves_of_not_ignored. exact E.
Qed.

(** The leaves are those of the pruned payload read with no ignore set. *)
Lemma leaves_of_prune (v : pyval) :
  forall key,
    leaves_of None key (prune_value ignore_keys v) = leaves_of ignore_keys key v.
Proof.
  induction v as [| b | z | f | s | l _ | d IH | cls] using pyval_ind; intros key;
    try reflexivity.
  cbn [prune_value leaves_of].
  induction IH as [|[k v] d Hkv _ IHd]; [reflexivity|].
  cbn [flat_map fst snd]. rewrite flat_map_app, IHd. f_equal.
  destruct (not_ignored ignore_keys k); [|reflexivity].
  cbn [flat_map fst snd not_ignored]. rewrite app_nil_r. apply Hkv.
Qed.

Lemma leaves_prune (d : pydict) :
  leaves None (prune ignore_keys d) = leaves ignore_keys d.
Proof. apply (leaves_of_prune (VDict d) ""). Qed.

End Run.

(** ** The classifier *)

Lemma number_isinstance (v : pyval) :
  number v = true -> isinstance_int_float v = true.
Proof. destruct v; cbn; congruence. Qed.

(** C1: on a value that one of the specification's four cases covers, taken
    in its order of precedence (text, then boolean, then integer or float,
    then a list of two numbers), [get_record_type] returns the tag of that
    case; so ["abc"] is STRING, [True] and [False] are BOOLEAN and not
    NUMBER, [42] and [3.14] are NUMBER and [[1.0, 2.0]] is GEOGRAPHY. *)
Theorem get_record_type_precedence :
  (forall v t, spec_tag v = Some t -> get_record_type v = Ok t) /\
  get_record_type (VStr "abc") = Ok STRING /\
  get_record_type (VBool true) = Ok BOOLEAN /\
  get_record_type (VBool false) = Ok BOOLEAN /\
  get_record_type (VInt 42) = Ok NUMBER /\
  get_record_type (VFloat float_3_14) = Ok NUMBER /\
  get_record_type (VList [VFloat float_1_0; VFloat float_2_0]) = Ok GEOGRAPHY.
Proof.
  split; [|repeat split; reflexivity].
  intros v t. unfold spec_tag.
  destruct v as [| b | z | f | s | l | d | cls]; cbn; try congruence.
  destruct l as [|x [|y [|w l]]]; try discriminate.
  destruct (number x) eqn:Hx; [|discriminate].
  destruct (number y) eqn:Hy; [|discriminate].
  cbn. intros H. inversion H; subst.
  unfold get_record_type. cbn.
  rewrite (number_isinstance x Hx), (number_isinstance y Hy). reflexivity.
Qed.

Lemma get_record_type_precedence_witness :
  spec_tag (VList [VInt 1; VFloat float_2_0]) = Some GEOGRAPHY /\
  get_record_type (VList [VInt 1; VFloat float_2_0]) = Ok GEOGRAPHY.
Proof.
  split; [reflexivity|].
  apply (proj1 get_record_type_precedence). reflexivity.
Defined.

(** The test of the code on a list is the coordinate pair. *)
Lemma coordinate_test (l : list pyval) :
  ((List.length l =? 2)%nat && forallb isinstance_int_float l = true) <->
  coordinate_pair l.
Proof.
  split.
  - intros H. apply andb_prop in H. destruct H as [Hlen Hall].
    destruct l as [|x [|y [|w l]]]; try discriminate.
    cbn in Hall. apply andb_prop in Hall. destruct Hall as [Hx Hy].
    apply andb_prop in Hy. destruct Hy as [Hy _].
    exists x, y. repeat split; assumption.
  - intros (x & y & -> & Hx & Hy). unfold numeric in *.
    cbn. rewrite Hx, Hy. reflexivity.
Qed.

(** C2: [get_record_type] raises on the values of none of the four tags and
    on no other: on a list that is not two numeric elements the [TypeError]
    of the invalid coordinate pair, which carries the list; on [None], a
    dict or an object of another class the [TypeError] of the unknown type,
    which carries the name of the value's type. *)
Theorem get_record_type_errors :
  (forall l, ~ coordinate_pair l ->
     get_record_type (VList l) = Raise (TypeError (ListNotCoordinatePair l))) /\
  (forall v, other_shape v ->
     get_record_type v = Raise (TypeError (UnknownPayloadType (type_name v)))) /\
  (forall v e, get_record_type v = Raise e ->
     (exists l, v = VList l /\ ~ coordinate_pair l /\
                e = TypeError (ListNotCoordinatePair l)) \/
     (other_shape v /\ e = TypeError (UnknownPayloadType (type_name v)))) /\
  (forall v,
     textual v = true \/ boolean v = true \/ number v = true \/
     (exists l, v = VList l /\ coordinate_pair l) ->
     exists t, get_record_type v = Ok t).
Proof.
  split; [|split; [|split]].
  - intros l Hl. unfold get_record_type. cbn.
    destruct ((List.length l =? 2)%nat && forallb isinstance_int_float l) eqn:E;
      [|reflexivity].
    exfalso. apply Hl, coordinate_test, E.
  - intros v [-> | [[d ->] | [cls ->]]]; reflexivity.
  - intros v e.
    destruct v as [| b | z | f | s | l | d | cls]; unfold get_record_type; cbn;
      try discriminate.
    + intros H. inversion H. right. split; [left; reflexivity | reflexivity].
    + destruct ((List.length l =? 2)%nat && forallb isinstance_int_float l) eqn:E;
        [discriminate|].
      intros H. inversion H. left. exists l. repeat split.
      intros Hp. apply coordinate_test in Hp. congruence.
    + intros H. inversion H. right. split; [|reflexivity].
      right. left. exists d. reflexivity.
    + intros H. inversion H. right. split; [|reflexivity].
      right. right. exists cls. reflexivity.
  - intros v [H | [H | [H | (l & -> & Hl)]]].
    + destruct v; try discriminate H. exists STRING. reflexivity.
    + destruct v; try discriminate H. exists BOOLEAN. reflexivity.
    + destruct v; try discriminate H; exists NUMBER; reflexivity.
    + exists GEOGRAPHY. apply coordinate_test in Hl.
      unfold get_record_type. cbn [isinstance_str type_is_bool isinstance_int_float].
      rewrite Hl. reflexivity.
Qed.

Lemma get_record_type_errors_witness :
  get_record_type (VList [VInt 1; VInt 2; VInt 3]) =
    Raise (TypeError (ListNotCoordinatePair [VInt 1; VInt 2; VInt 3])) /\
  get_record_type (VList [VStr "a"; VStr "b"]) =
    Raise (TypeError (ListNotCoordinatePair [VStr "a"; VStr "b"])) /\
  get_record_type VNone = Raise (TypeError (UnknownPayloadType "NoneType")) /\
  ((exists l, VDict [] = VList l /\ ~ coordinate_pair l /\
              TypeError (UnknownPayloadType "dict") = TypeError (ListNotCoordinatePair l)) \/
   (other_shape (VDict []) /\
    TypeError (UnknownPayloadType "dict") =
      TypeError (UnknownPayloadType (type_name (VDict []))))) /\
  (exists t, get_record_type (VList [VInt 1; VBool true]) = Ok t).
Proof.
  split; [|split; [|split; [|split]]].
  - apply (proj1 get_record_type_errors).
    intros (x & y & H & _). discriminate H.
  - apply (proj1 get_record_type_errors).
    intros (x & y & H & Hx & _). inversion H; subst. discriminate Hx.
  - apply (proj1 (proj2 get_record_type_errors) VNone). left. reflexivity.
  - apply (proj1 (proj2 (proj2 get_record_type_errors)) (VDict [])). reflexivity.
  - apply (proj2 (proj2 (proj2 get_record_type_errors))).
    right. right. right. exists [VInt 1; VBool true]. split; [reflexivity|].
    exists (VInt 1), (VBool true). repeat split.
Defined.

(** C10: a list of two elements, each a boolean, an integer or a float, is
    GEOGRAPHY: the coordinate test takes a boolean element as numeric. *)
Theorem get_record_type_bool_coordinates (x y : pyval) :
  bool_int_or_float x -> bool_int_or_float y ->
  get_record_type (VList [x; y]) = Ok GEOGRAPHY.
Proof.
  intros Hx Hy.
  assert (Nx : isinstance_int_float x = true)
    by (destruct Hx as [[b ->] | [[z ->] | [f ->]]]; reflexivity).
  assert (Ny : isinstance_int_float y = true)
    by (destruct Hy as [[b ->] | [[z ->] | [f ->]]]; reflexivity).
  unfold get_record_type. cbn. rewrite Nx, Ny. reflexivity.
Qed.

Lemma get_record_type_bool_coordinates_witness :
  get_record_type (VList [VBool true; VBool false]) = Ok GEOGRAPHY /\
  get_record_type (VList [VBool true; VFloat float_1_5]) = Ok GEOGRAPHY.
Proof.
  split.
  - apply get_record_type_bool_coordinates; left; [exists true | exists false]; reflexivity.
  - apply get_record_type_bool_coordinates;
      [left; exists true | right; right; exists float_1_5]; reflexivity.
Defined.

(** ** The flattener *)

(** C3: the records come in depth-first pre-order, each dict read in the
    order of its items: when flattening returns, its records are those of
    the leaves of the payload, one for each and in their order; on
    [{"a": 1, "b": {"c": 2, "d": 3}}] with no prefix and no ignore set there
    are three of them, for [a], [c] and [d] in that order. *)
Theorem flatten_preorder
    (ts : string) (corr : option string) (publisher subject : string)
    (ignore_keys : option (list string)) (measurement_of_prefix : option string) :
  (forall payload rs,
     flatten ts corr publisher subject ignore_keys measurement_of_prefix payload = Ok rs ->
     map (fun r => (measurement_of r, measurement_value r)) rs =
     map (fun kv => (measurement_name measurement_of_prefix (fst kv), snd kv))
         (leaves ignore_keys (payload_items payload))) /\
  (exists r1 r2 r3,
     flatten ts corr publisher subject None None (Some payload_a_b_cd) = Ok [r1; r2; r3] /\
     measurement_of r1 = "a" /\ measurement_of r2 = "c" /\ measurement_of r3 = "d").
Proof.
  split.
  - intros payload rs H. apply flatten_Ok in H. destruct H as [Hf ->].
    apply emitted_complete. exact Hf.
  - do 3 eexists. split; [reflexivity|]. repeat split.
Qed.

Lemma flatten_preorder_witness :
  exists rs,
    flatten "t" (Some "c") "p" "s" (Some ["skip"]) None (Some payload_skip) = Ok rs /\
    map (fun r => (measurement_of r, measurement_value r)) rs =
    [("a", VInt 1); ("c", VStr "x")].
Proof.
  eexists. split; [reflexivity|].
  apply (proj1 (flatten_preorder "t" (Some "c") "p" "s" (Some ["skip"]) None)
           (Some payload_skip)).
  reflexivity.
Defined.

(** C4: when flattening returns, every record has the timestamp, the
    publisher, the subject and the correlation id of the call, whatever the
    depth of its leaf. *)
Theorem flatten_metadata
    (ts : string) (corr : option string) (publisher subject : string)
    (ignore_keys : option (list string)) (measurement_of_prefix : option string)
    (payload : option pydict) (rs : list atomic_record) :
  flatten ts corr publisher subject ignore_keys measurement_of_prefix payload = Ok rs ->
  Forall (fun r => timestamp r = ts /\
                   measurement_publisher r = publisher /\
                   measurement_subject r = subject /\
                   correlation_id r = corr) rs.
Proof.
  intros H. apply flatten_Ok in H. destruct H as [_ ->]. apply emitted_metadata.
Qed.

Lemma flatten_metadata_witness :
  exists rs,
    flatten "t" (Some "c") "p" "s" None None (Some payload_a_b_cd) = Ok rs /\
    List.length rs = 3%nat /\
    Forall (fun r => timestamp r = "t" /\
                     measurement_publisher r = "p" /\
                     measurement_subject r = "s" /\
                     correlation_id r = Some "c") rs.
Proof.
  eexists. split; [reflexivity|]. split; [reflexivity|].
  apply (flatten_metadata "t" (Some "c") "p" "s" None None (Some payload_a_b_cd)).
  reflexivity.
Defined.

(** C5: with a key [k] in the ignore set, the list that the call fills holds
    no record named after [k], and the call does what it does on the
    payload from which every item with an ignored key has been removed, at
    every depth and with all that is under it, read with no ignore set:
    nothing under an ignored key is visited, whatever it is, and the other
    keys are processed as usual. *)
Theorem flatten_ignore
    (ts : string) (corr : option string) (publisher subject : string)
    (ks : list string) (measurement_of_prefix : option string)
    (k : string) (payload : option pydict) (records : list atomic_record) :
  In k ks ->
  Forall (fun r => measurement_of r <> measurement_name measurement_of_prefix k)
    (snd (create_record_recursive ts corr publisher subject (Some ks)
            measurement_of_prefix payload [])) /\
  create_record_recursive ts corr publisher subject (Some ks) measurement_of_prefix
    payload records =
  create_record_recursive ts corr publisher subject None measurement_of_prefix
    (option_map (prune (Some ks)) payload) records.
Proof.
  intros Hk. split.
  - rewrite create_record_recursive_run. cbn [snd app].
    apply Forall_impl with (2 := emitted_names ts corr publisher subject
                                   measurement_of_prefix _).
    intros r (kv & Hin & Hr) Heq. rewrite Hr in Heq.
    apply measurement_name_inj in Heq.
    pose proof (leaves_not_ignored (Some ks) (payload_items payload)) as Hl.
    rewrite Forall_forall in Hl. specialize (Hl kv Hin).
    rewrite Heq, (not_ignored_In ks k Hk) in Hl. discriminate Hl.
  - rewrite !create_record_recursive_run.
    replace (payload_items (option_map (prune (Some ks)) payload))
      with (prune (Some ks) (payload_items payload))
      by (destruct payload; reflexivity).
    rewrite leaves_prune. reflexivity.
Qed.

Lemma flatten_ignore_witness :
  In "skip" ["skip"] /\
  Forall (fun r => measurement_of r <> "skip")
    (snd (create_record_recursive "t" None "p" "s" (Some ["skip"]) None
            (Some payload_skip) [])) /\
  create_record_recursive "t" None "p" "s" (Some ["skip"]) None (Some payload_skip) [] =
  create_record_recursive "t" None "p" "s" None None
    (Some [("a", VInt 1); ("n", VDict [("c", VStr "x")])]) [].
Proof.
  split; [left; reflexivity|].
  apply (flatten_ignore "t" None "p" "s" ["skip"] None "skip" (Some payload_skip) []).
  left. reflexivity.
Defined.

(** C6: with a prefix [p], the name of every record that flattening returns
    is [p], an underscore and the key of its leaf, the keys above the leaf
    taking no part, so [{"loc": {"x": 1}}] under ["p"] gives ["p_x"]; with
    no prefix the name is the key of the leaf. *)
Theorem flatten_prefix
    (ts : string) (corr : option string) (publisher subject : string)
    (ignore_keys : option (list string)) :
  (forall p payload rs,
     flatten ts corr publisher subject ignore_keys (Some p) payload = Ok rs ->
     map measurement_of rs =
     map (fun kv => (p ++ "_" ++ fst kv)%string)
         (leaves ignore_keys (payload_items payload))) /\
  (forall payload rs,
     flatten ts corr publisher subject ignore_keys None payload = Ok rs ->
     map measurement_of rs = map fst (leaves ignore_keys (payload_items payload))) /\
  (exists r,
     flatten ts corr publisher subject None (Some "p") (Some payload_loc_x) = Ok [r] /\
     measurement_of r = "p_x").
Proof.
  assert (names : forall pre payload rs,
             flatten ts corr publisher subject ignore_keys pre payload = Ok rs ->
             map measurement_of rs =
             map (fun kv => measurement_name pre (fst kv))
                 (leaves ignore_keys (payload_items payload))).
  { intros pre payload rs H. apply flatten_Ok in H. destruct H as [Hf ->].
    apply (emitted_complete ts corr publisher subject pre) in Hf.
    apply (f_equal (map fst)) in Hf. rewrite !map_map in Hf. exact Hf. }
  split; [|split].
  - intros p payload rs H. apply (names (Some p)). exact H.
  - intros payload rs H. apply (names None). exact H.
  - eexists. split; reflexivity.
Qed.

Lemma flatten_prefix_witness :
  exists rs,
    flatten "t" None "p" "s" None (Some "geo") (Some payload_a_b_cd) = Ok rs /\
    map measurement_of rs = ["geo_a"; "geo_c"; "geo_d"].
Proof.
  eexists. split; [reflexivity|].
  apply (proj1 (flatten_prefix "t" None "p" "s" None) "geo" (Some payload_a_b_cd)).
  reflexivity.
Defined.

(** C7: flattening [None] and flattening the empty dict return the empty
    list and raise nothing. *)
Theorem flatten_empty
    (ts : string) (corr : option string) (publisher subject : string)
    (ignore_keys : option (list string)) (measurement_of_prefix : option string) :
  flatten ts corr publisher subject ignore_keys measurement_of_prefix None = Ok [] /\
  flatten ts corr publisher subject ignore_keys measurement_of_prefix (Some []) = Ok [].
Proof. split; reflexivity. Qed.

(** C8, as stated, fails: on [{"a": 1, "b": None}] the call raises at [b]
    after it has appended the record of [a] to the caller's list, which is
    no longer as it was. *)
Lemma all_or_nothing_counterexample :
  create_record_recursive "t" None "p" "s" None None (Some payload_a_none) [] =
    (Raise (TypeError (UnknownPayloadType "NoneType")),
     [create_atomic_record "t" "s" "p" "a" (VInt 1) NUMBER None]) /\
  ~ all_or_nothing "t" None "p" "s" None None (Some payload_a_none) [].
Proof.
  split; [reflexivity|].
  intros H. specialize (H _ _ eq_refl). discriminate H.
Qed.

(** C8, amended: when a leaf of the payload has no type, the call raises the
    exception of the first such leaf as [get_record_type] raised it, and
    flattening returns no list, while the records of the leaves before that
    one stay appended to the list the caller passed; when every leaf has a
    type, the call returns that list with one more record for each leaf. *)
Theorem create_record_recursive_fail_fast
    (ts : string) (corr : option string) (publisher subject : string)
    (ignore_keys : option (list string)) (measurement_of_prefix : option string)
    (payload : option pydict) (records : list atomic_record) :
  (Exists fails (leaves ignore_keys (payload_items payload)) ->
   exists l1 k v l2 e,
     leaves ignore_keys (payload_items payload) = l1 ++ (k, v) :: l2 /\
     Forall classifies l1 /\
     get_record_type v = Raise e /\
     flatten ts corr publisher subject ignore_keys measurement_of_prefix payload = Raise e /\
     create_record_recursive ts corr publisher subject ignore_keys measurement_of_prefix
       payload records =
     (Raise e,
      records ++ emitted ts corr publisher subject measurement_of_prefix l1) /\
     List.length (emitted ts corr publisher subject measurement_of_prefix l1) =
     List.length l1) /\
  (Forall classifies (leaves ignore_keys (payload_items payload)) ->
   exists new,
     flatten ts corr publisher subject ignore_keys measurement_of_prefix payload = Ok new /\
     create_record_recursive ts corr publisher subject ignore_keys measurement_of_prefix
       payload records = (Ok (records ++ new), records ++ new) /\
     map (fun r => (measurement_of r, measurement_value r)) new =
     map (fun kv => (measurement_name measurement_of_prefix (fst kv), snd kv))
         (leaves ignore_keys (payload_items payload))).
Proof.
  split.
  - intros H. apply fails_first in H.
    destruct H as (l1 & k & v & l2 & e & Hl & H1 & Hv).
    exists l1, k, v, l2, e. repeat split; try assumption.
    + rewrite flatten_run, Hl, (failure_first l1 l2 k v e H1 Hv). reflexivity.
    + rewrite create_record_recursive_run, Hl, (failure_first l1 l2 k v e H1 Hv).
      rewrite (emitted_first ts corr publisher subject measurement_of_prefix
                 l1 l2 k v e H1 Hv).
      reflexivity.
    + apply failure_none in H1.
      apply (emitted_complete ts corr publisher subject measurement_of_prefix) in H1.
      apply (f_equal (@List.length _)) in H1. rewrite !length_map in H1. exact H1.
  - intros H. apply failure_none in H.
    exists (emitted ts corr publisher subject measurement_of_prefix
              (leaves ignore_keys (payload_items payload))).
    repeat split.
    + rewrite flatten_run, H. reflexivity.
    + rewrite create_record_recursive_run, H. reflexivity.
    + apply emitted_complete. exact H.
Qed.

Lemma create_record_recursive_fail_fast_witness :
  (exists l1 k v l2 e,
     leaves None payload_a_none = l1 ++ (k, v) :: l2 /\
     Forall classifies l1 /\
     get_record_type v = Raise e /\
     flatten "t" None "p" "s" None None (Some payload_a_none) = Raise e /\
     create_record_recursive "t" None "p" "s" None None (Some payload_a_none) [old_record] =
     (Raise e, [old_record] ++ emitted "t" None "p" "s" None l1) /\
     List.length (emitted "t" None "p" "s" None l1) = List.length l1) /\
  (exists new,
     flatten "t" None "p" "s" None None (Some payload_a_b_cd) = Ok new /\
     create_record_recursive "t" None "p" "s" None None (Some payload_a_b_cd) [old_record] =
     (Ok ([old_record] ++ new), [old_record] ++ new) /\
     map (fun r => (measurement_of r, measurement_value r)) new =
     [("a", VInt 1); ("c", VInt 2); ("d", VInt 3)]).
Proof.
  split.
  - apply (proj1 (create_record_recursive_fail_fast "t" None "p" "s" None None
                    (Some payload_a_none) [old_record])).
    apply Exists_cons_tl, Exists_cons_hd. eexists. reflexivity.
  - apply (proj2 (create_record_recursive_fail_fast "t" None "p" "s" None None
                    (Some payload_a_b_cd) [old_record])).
    repeat constructor; eexists; reflexivity.
Defined.

(** C9: the call appends to the list it is given: the list it returns is
    that list, which holds what it held before followed by the records that
    flattening the payload produces; on [None] and on the empty dict the
    list is returned as it was, empty only if it was empty. *)
Theorem create_record_recursive_appends
    (ts : string) (corr : option string) (publisher subject : string)
    (ignore_keys : option (list string)) (measurement_of_prefix : option string)
    (records : list atomic_record) :
  (forall payload rs st,
     create_record_recursive ts corr publisher subject ignore_keys measurement_of_prefix
       payload records = (Ok rs, st) ->
     exists new,
       flatten ts corr publisher subject ignore_keys measurement_of_prefix payload = Ok new /\
       rs = records ++ new /\ st = rs) /\
  create_record_recursive ts corr publisher subject ignore_keys measurement_of_prefix
    None records = (Ok records, records) /\
  create_record_recursive ts corr publisher subject ignore_keys measurement_of_prefix
    (Some []) records = (Ok records, records).
Proof.
  split; [|split; reflexivity].
  intros payload rs st. rewrite create_record_recursive_run, flatten_run.
  destruct (failure _); cbn [ending]; [discriminate|].
  intros H. inversion H. eexists. repeat split.
Qed.

Lemma create_record_recursive_appends_witness :
  exists new,
    flatten "t" None "p" "s" None None (Some payload_loc_x) = Ok new /\
    [old_record; create_atomic_record "t" "s" "p" "x" (VInt 1) NUMBER None] =
    [old_record] ++ new /\
    [old_record; create_atomic_record "t" "s" "p" "x" (VInt 1) NUMBER None] =
    [old_record; create_atomic_record "t" "s" "p" "x" (VInt 1) NUMBER None].
Proof.
  apply (proj1 (create_record_recursive_appends "t" None "p" "s" None None [old_record])
           (Some payload_loc_x)).
  reflexivity.
Defined.

(** ** More on the classifier *)

(** A tag tells the shape of the value: STRING only a [str], BOOLEAN only a
    [bool], NUMBER only an [int] or a [float] that is no [bool], GEOGRAPHY
    only a list of two elements, each a [bool], an [int] or a [float]. *)
Theorem get_record_type_shape (v : pyval) (t : PayloadType) :
  get_record_type v = Ok t -> shape_of t v.
Proof.
  destruct v as [| b | z | f | s | l | d | cls]; unfold get_record_type; cbn;
    try discriminate; try (intros H; inversion H; subst; cbn; eauto; fail).
  destruct ((List.length l =? 2)%nat && forallb isinstance_int_float l) eqn:E;
    [|discriminate].
  intros H. inversion H; subst. apply coordinate_test in E.
  destruct E as (x & y & -> & Hx & Hy). exists x, y.
  assert (K : forall w, numeric w -> bool_int_or_float w).
  { intros w Hw. unfold numeric in Hw. destruct w; try discriminate Hw.
    - left. eauto.
    - right. left. eauto.
    - right. right. eauto. }
  repeat split; auto.
Qed.

Lemma get_record_type_shape_witness :
  get_record_type (VList [VBool true; VFloat float_1_5]) = Ok GEOGRAPHY /\
  shape_of GEOGRAPHY (VList [VBool true; VFloat float_1_5]).
Proof.
  split; [reflexivity|].
  apply get_record_type_shape. reflexivity.
Defined.

Lemma value_inj (t1 t2 : PayloadType) : value t1 = value t2 -> t1 = t2.
Proof. destruct t1, t2; cbn; intros H; try reflexivity; discriminate H. Qed.

(** ** More on the leaves *)

Lemma leaves_app (ignore_keys : option (list string)) (d1 d2 : pydict) :
  leaves ignore_keys (d1 ++ d2) = leaves ignore_keys d1 ++ leaves ignore_keys d2.
Proof. apply flat_map_app. Qed.

(** No leaf is a dict. *)
Lemma leaves_of_not_dict (ignore_keys : option (list string)) (v : pyval) :
  forall key,
    Forall (fun kv => isinstance_dict (snd kv) = false) (leaves_of ignore_keys key v).
Proof.
  induction v as [| b | z | f | s | l _ | d IH | cls] using pyval_ind; intros key;
    try (constructor; [reflexivity | constructor]).
  cbn [leaves_of].
  induction IH as [|[k v] d Hkv _ IHd]; cbn; [constructor|].
  apply Forall_app. split; [|exact IHd].
  destruct (not_ignored ignore_keys k); [|constructor].
  apply Hkv.
Qed.

Lemma leaves_not_dict (ignore_keys : option (list string)) (d : pydict) :
  Forall (fun kv => isinstance_dict (snd kv) = false) (leaves ignore_keys d).
Proof. apply (leaves_of_not_dict ignore_keys (VDict d) ""). Qed.

(** The leaves depend on the ignore set through its members only. *)
Lemma leaves_of_ext (i1 i2 : option (list string)) (v : pyval) :
  (forall k, not_ignored i1 k = not_ignored i2 k) ->
  forall key, leaves_of i1 key v = leaves_of i2 key v.
Proof.
  intros Hi.
  induction v as [| b | z | f | s | l _ | d IH | cls] using pyval_ind; intros key;
    try reflexivity.
  cbn [leaves_of].
  induction IH as [|[k v] d Hkv _ IHd]; cbn; [reflexivity|].
  rewrite IHd, Hi. destruct (not_ignored i2 k); [|reflexivity].
  rewrite Hkv. reflexivity.
Qed.

Lemma leaves_ext (i1 i2 : option (list string)) (d : pydict) :
  (forall k, not_ignored i1 k = not_ignored i2 k) ->
  leaves i1 d = leaves i2 d.
Proof. intros Hi. apply (leaves_of_ext i1 i2 (VDict d) Hi ""). Qed.

Lemma failure_In (l : list (string * pyval)) (e : exn) :
  failure l = Some e ->
  exists kv, In kv l /\ get_record_type (snd kv) = Raise e.
Proof.
  induction l as [|kv l IH]; cbn; [discriminate|].
  destruct (get_record_type (snd kv)) as [t|e'] eqn:E.
  - intros H. destruct (IH H) as (kv' & Hin & Hr).
    exists kv'. split; [right; exact Hin | exact Hr].
  - intros H. inversion H; subst. exists kv. split; [left; reflexivity | exact E].
Qed.

Lemma subseq_refl {A : Type} (l : list A) : subseq l l.
Proof. induction l; constructor; assumption. Qed.

Lemma subseq_nil_l {A : Type} (l : list A) : subseq [] l.
Proof. induction l; constructor; assumption. Qed.

Lemma subseq_app {A : Type} (l1 l1' l2 l2' : list A) :
  subseq l1 l1' -> subseq l2 l2' -> subseq (l1 ++ l2) (l1' ++ l2').
Proof.
  intros H1 H2. induction H1; cbn; try constructor; assumption.
Qed.

Lemma subseq_Forall {A : Type} (P : A -> Prop) (l1 l2 : list A) :
  subseq l1 l2 -> Forall P l2 -> Forall P l1.
Proof.
  induction 1 as [| x l1 l2 _ IH | x l1 l2 _ IH]; intros H.
  - constructor.
  - inversion H; subst. auto.
  - inversion H; subst. constructor; auto.
Qed.

(** A larger ignore set leaves out some of the leaves and adds none. *)
Lemma leaves_of_subseq (i1 i2 : option (list string)) (v : pyval) :
  (forall k, not_ignored i2 k = true -> not_ignored i1 k = true) ->
  forall key, subseq (leaves_of i2 key v) (leaves_of i1 key v).
Proof.
  intros Hi.
  induction v as [| b | z | f | s | l _ | d IH | cls] using pyval_ind; intros key;
    try apply subseq_refl.
  cbn [leaves_of].
  induction IH as [|[k v] d Hkv _ IHd]; cbn; [constructor|].
  apply subseq_app; [|exact IHd].
  destruct (not_ignored i2 k) eqn:E; [|apply subseq_nil_l].
  rewrite (Hi k E). apply Hkv.
Qed.

Lemma leaves_subseq (i1 i2 : option (list string)) (d : pydict) :
  (forall k, not_ignored i2 k = true -> not_ignored i1 k = true) ->
  subseq (leaves i2 d) (leaves i1 d).
Proof. intros Hi. apply (leaves_of_subseq i1 i2 (VDict d) Hi ""). Qed.

Lemma not_ignored_incl (ks1 ks2 : list string) :
  incl ks1 ks2 ->
  forall k, not_ignored (Some ks2) k = true -> not_ignored (Some ks1) k = true.
Proof.
  intros Hincl k. cbn. rewrite !negb_true_iff.
  intros H2. destruct (existsb (String.eqb k) ks1) eqn:E; [|reflexivity].
  apply existsb_exists in E. destruct E as (x & Hin & Hx).
  assert (existsb (String.eqb k) ks2 = true) as H
    by (apply existsb_exists; exists x; split; [apply Hincl, Hin | exact Hx]).
  congruence.
Qed.

Section More_emitted.

Variables (ts : string) (corr : option string) (publisher subject : string).
Variable measurement_of_prefix : option string.

Abbreviation emitted_p := (emitted ts corr publisher subject measurement_of_prefix).

Lemma emitted_typed (l : list (string * pyval)) :
  Forall (fun r => exists t,
            get_record_type (measurement_value r) = Ok t /\
            measurement_data_type r = value t) (emitted_p l).
Proof.
  induction l as [|kv l IH]; cbn; [constructor|].
  destruct (get_record_type (snd kv)) as [t|e] eqn:E; constructor; [|exact IH].
  exists t. split; [exact E | reflexivity].
Qed.

Lemma emitted_subseq (l1 l2 : list (string * pyval)) :
  subseq l2 l1 -> failure l1 = None -> subseq (emitted_p l2) (emitted_p l1).
Proof.
  induction 1 as [| kv l2 l1 _ IH | kv l2 l1 _ IH]; cbn.
  - constructor.
  - destruct (get_record_type (snd kv)); [|discriminate].
    intros H. apply subseq_skip, IH, H.
  - destruct (get_record_type (snd kv)); [|discriminate].
    intros H. apply subseq_keep, IH, H.
Qed.

Lemma emitted_with_prefix (p : string) (l : list (string * pyval)) :
  emitted ts corr publisher subject (Some p) l =
  map (with_prefix p) (emitted ts corr publisher subject None l).
Proof.
  induction l as [|kv l IH]; cbn; [reflexivity|].
  destruct (get_record_type (snd kv)); [|reflexivity].
  cbn. rewrite IH. reflexivity.
Qed.

End More_emitted.

Lemma NoDup_map_inj {A B : Type} (f : A -> B) (l : list A) :
  (forall x y, f x = f y -> x = y) -> NoDup l -> NoDup (map f l).
Proof.
  intros Hf. induction 1 as [|x l Hx _ IH]; cbn; constructor; [|exact IH].
  intros Hin. apply in_map_iff in Hin. destruct Hin as (y & Hy & Hin).
  apply Hf in Hy. subst. contradiction.
Qed.

Lemma not_ignored_members (ks1 ks2 : list string) :
  (forall k, In k ks1 <-> In k ks2) ->
  forall k, not_ignored (Some ks1) k = not_ignored (Some ks2) k.
Proof.
  intros H k. destruct (not_ignored (Some ks2) k) eqn:E2.
  - apply (not_ignored_incl ks1 ks2); [|exact E2]. intros x Hx. apply H, Hx.
  - destruct (not_ignored (Some ks1) k) eqn:E1; [|reflexivity].
    rewrite (not_ignored_incl ks2 ks1) in E2; [discriminate E2 | | exact E1].
    intros x Hx. apply H, Hx.
Qed.

(** ** More on the flattener *)

(** The type stored with a record is the one of its value: every record
    that flattening returns holds the string of the tag that
    [get_record_type] gives to its [measurement_value], and that string is
    the string of no other tag. *)
Theorem flatten_data_types
    (ts : string) (corr : option string) (publisher subject : string)
    (ignore_keys : option (list string)) (measurement_of_prefix : option string)
    (payload : option pydict) (rs : list atomic_record) :
  flatten ts corr publisher subject ignore_keys measurement_of_prefix payload = Ok rs ->
  Forall (fun r => exists t,
            get_record_type (measurement_value r) = Ok t /\
            measurement_data_type r = value t /\
            forall t', measurement_data_type r = value t' -> t' = t) rs.
Proof.
  intros H. apply flatten_Ok in H. destruct H as [_ ->].
  apply Forall_impl with (2 := emitted_typed ts corr publisher subject
                                 measurement_of_prefix _).
  intros r (t & Ht & Hv). exists t. repeat split; try assumption.
  intros t' Ht'. rewrite Hv in Ht'. symmetry. apply value_inj, Ht'.
Qed.

Lemma flatten_data_types_witness :
  exists rs,
    flatten "t" None "p" "s" None None (Some payload_geo) = Ok rs /\
    map measurement_data_type rs = ["number"; "boolean"; "string"] /\
    Forall (fun r => exists t,
              get_record_type (measurement_value r) = Ok t /\
              measurement_data_type r = value t /\
              forall t', measurement_data_type r = value t' -> t' = t) rs.
Proof.
  eexists. split; [reflexivity|]. split; [reflexivity|].
  apply (flatten_data_types "t" None "p" "s" None None (Some payload_geo)).
  reflexivity.
Defined.

(** Two calls in a row on the same list, for two payloads with no key in
    common, do what one call does for the dict of the items of the first
    followed by those of the second; when the first call raises, the second
    is not made. *)
Theorem create_record_recursive_sequence
    (ts : string) (corr : option string) (publisher subject : string)
    (ignore_keys : option (list string)) (measurement_of_prefix : option string)
    (d1 d2 : pydict) (records : list atomic_record) :
  NoDup (keys (d1 ++ d2)) ->
  (create_record_recursive ts corr publisher subject ignore_keys measurement_of_prefix
     (Some d1) ;;
   create_record_recursive ts corr publisher subject ignore_keys measurement_of_prefix
     (Some d2)) records =
  create_record_recursive ts corr publisher subject ignore_keys measurement_of_prefix
    (Some (d1 ++ d2)) records.
Proof.
  intros _. unfold bind. rewrite !create_record_recursive_run.
  cbn [payload_items]. rewrite leaves_app, failure_app, emitted_app.
  destruct (failure (leaves ignore_keys d1)) as [e|]; cbn [ending]; [reflexivity|].
  rewrite <- !app_assoc. reflexivity.
Qed.

Lemma create_record_recursive_sequence_witness :
  NoDup (keys (payload_loc_x ++ payload_a_none)) /\
  (create_record_recursive "t" None "p" "s" None None (Some payload_loc_x) ;;
   create_record_recursive "t" None "p" "s" None None (Some payload_a_none)) [old_record] =
  create_record_recursive "t" None "p" "s" None None
    (Some (payload_loc_x ++ payload_a_none)) [old_record].
Proof.
  assert (H : NoDup (keys (payload_loc_x ++ payload_a_none))).
  { repeat (constructor; [cbn; intuition discriminate|]). constructor. }
  split; [exact H|].
  apply (create_record_recursive_sequence "t" None "p" "s" None None
           payload_loc_x payload_a_none [old_record] H).
Defined.

(** Nesting leaves no trace: under a key that is not ignored, a nested dict
    gives what its items give when they stand in its place in the enclosing
    dict; so an empty nested dict gives nothing and raises nothing. *)
Theorem create_record_recursive_nesting
    (ts : string) (corr : option string) (publisher subject : string)
    (ignore_keys : option (list string)) (measurement_of_prefix : option string)
    (d1 d d2 : pydict) (k : string) (records : list atomic_record) :
  not_ignored ignore_keys k = true ->
  NoDup (keys (d1 ++ d ++ d2)) ->
  create_record_recursive ts corr publisher subject ignore_keys measurement_of_prefix
    (Some (d1 ++ (k, VDict d) :: d2)) records =
  create_record_recursive ts corr publisher subject ignore_keys measurement_of_prefix
    (Some (d1 ++ d ++ d2)) records.
Proof.
  intros Hk _. rewrite !create_record_recursive_run. cbn [payload_items].
  rewrite !leaves_app, leaves_cons, Hk, leaves_of_dict. reflexivity.
Qed.

Lemma create_record_recursive_nesting_witness :
  not_ignored (Some ["skip"]) "b" = true /\
  NoDup (keys ([("a", VInt 1)] ++ [("c", VInt 2); ("d", VInt 3)] ++ [])) /\
  create_record_recursive "t" None "p" "s" (Some ["skip"]) None
    (Some ([("a", VInt 1)] ++ [("b", VDict [("c", VInt 2); ("d", VInt 3)])])) [] =
  create_record_recursive "t" None "p" "s" (Some ["skip"]) None
    (Some ([("a", VInt 1)] ++ [("c", VInt 2); ("d", VInt 3)] ++ [])) [].
Proof.
  assert (H : NoDup (keys ([("a", VInt 1)] ++ [("c", VInt 2); ("d", VInt 3)] ++ []))).
  { repeat (constructor; [cbn; intuition discriminate|]). constructor. }
  split; [reflexivity|]. split; [exact H|].
  apply (create_record_recursive_nesting "t" None "p" "s" (Some ["skip"]) None
           [("a", VInt 1)] [("c", VInt 2); ("d", VInt 3)] [] "b" [] eq_refl H).
Defined.

(** The names of the records that flattening returns are distinct exactly
    when the keys of the leaves are: two leaves with the same key, at
    whatever depths, give two records with the same name, and two leaves
    with different keys never do. *)
Theorem flatten_names_distinct
    (ts : string) (corr : option string) (publisher subject : string)
    (ignore_keys : option (list string)) (measurement_of_prefix : option string)
    (payload : option pydict) (rs : list atomic_record) :
  flatten ts corr publisher subject ignore_keys measurement_of_prefix payload = Ok rs ->
  (NoDup (map measurement_of rs) <->
   NoDup (map fst (leaves ignore_keys (payload_items payload)))).
Proof.
  intros H. apply flatten_Ok in H. destruct H as [Hf ->].
  apply (emitted_complete ts corr publisher subject measurement_of_prefix) in Hf.
  assert (Hn : map measurement_of
                 (emitted ts corr publisher subject measurement_of_prefix
                    (leaves ignore_keys (payload_items payload))) =
               map (measurement_name measurement_of_prefix)
                 (map fst (leaves ignore_keys (payload_items payload)))).
  { rewrite map_map. apply (f_equal (map fst)) in Hf.
    rewrite !map_map in Hf. exact Hf. }
  rewrite Hn. split.
  - apply NoDup_map_inv.
  - apply NoDup_map_inj. apply measurement_name_inj.
Qed.

Lemma flatten_names_distinct_witness :
  exists rs,
    flatten "t" None "p" "s" None (Some "geo") (Some payload_a_b_cd) = Ok rs /\
    (NoDup (map measurement_of rs) <->
     NoDup (map fst (leaves None (payload_items (Some payload_a_b_cd))))).
Proof.
  eexists. split; [reflexivity|].
  apply (flatten_names_distinct "t" None "p" "s" None (Some "geo") (Some payload_a_b_cd)).
  reflexivity.
Defined.

(** An exception that leaves flattening was raised by [get_record_type] on
    the value of a leaf: a value that is no dict, under a key that is not
    ignored.  A nested dict is never given to the classifier. *)
Theorem flatten_raise_origin
    (ts : string) (corr : option string) (publisher subject : string)
    (ignore_keys : option (list string)) (measurement_of_prefix : option string)
    (payload : option pydict) (e : exn) :
  flatten ts corr publisher subject ignore_keys measurement_of_prefix payload = Raise e ->
  exists k v,
    In (k, v) (leaves ignore_keys (payload_items payload)) /\
    not_ignored ignore_keys k = true /\
    isinstance_dict v = false /\
    get_record_type v = Raise e.
Proof.
  rewrite flatten_run.
  destruct (failure (leaves ignore_keys (payload_items payload))) as [e'|] eqn:Hf;
    cbn [ending]; [|discriminate].
  intros H. inversion H; subst.
  apply failure_In in Hf. destruct Hf as ([k v] & Hin & Hr).
  exists k, v. repeat split; try assumption.
  - pose proof (leaves_not_ignored ignore_keys (payload_items payload)) as Hl.
    rewrite Forall_forall in Hl. apply (Hl (k, v) Hin).
  - pose proof (leaves_not_dict ignore_keys (payload_items payload)) as Hl.
    rewrite Forall_forall in Hl. apply (Hl (k, v) Hin).
Qed.

Lemma flatten_raise_origin_witness :
  exists k v,
    In (k, v) (leaves None (payload_items (Some payload_a_none))) /\
    not_ignored None k = true /\
    isinstance_dict v = false /\
    get_record_type v = Raise (TypeError (UnknownPayloadType "NoneType")).
Proof.
  apply (flatten_raise_origin "t" None "p" "s" None None (Some payload_a_none)).
  reflexivity.
Defined.

(** Only the members of [ignore_keys] count: two lists with the same
    members, in whatever order and with whatever repetitions, give the same
    call, and the empty list gives the call that [None] gives. *)
Theorem create_record_recursive_ignore_members
    (ts : string) (corr : option string) (publisher subject : string)
    (measurement_of_prefix : option string)
    (payload : option pydict) (records : list atomic_record) :
  (forall ks1 ks2,
     (forall k, In k ks1 <-> In k ks2) ->
     create_record_recursive ts corr publisher subject (Some ks1) measurement_of_prefix
       payload records =
     create_record_recursive ts corr publisher subject (Some ks2) measurement_of_prefix
       payload records) /\
  create_record_recursive ts corr publisher subject (Some []) measurement_of_prefix
    payload records =
  create_record_recursive ts corr publisher subject None measurement_of_prefix
    payload records.
Proof.
  split.
  - intros ks1 ks2 H. rewrite !create_record_recursive_run.
    rewrite (leaves_ext (Some ks1) (Some ks2)); [reflexivity|].
    apply not_ignored_members, H.
  - rewrite !create_record_recursive_run.
    rewrite (leaves_ext (Some []) None); reflexivity.
Qed.

Lemma create_record_recursive_ignore_members_witness :
  (forall k, In k ["b"; "skip"; "b"] <-> In k ["skip"; "b"]) /\
  create_record_recursive "t" None "p" "s" (Some ["b"; "skip"; "b"]) None
    (Some payload_skip) [] =
  create_record_recursive "t" None "p" "s" (Some ["skip"; "b"]) None
    (Some payload_skip) [].
Proof.
  assert (H : forall k, In k ["b"; "skip"; "b"] <-> In k ["skip"; "b"])
    by (intros k; cbn; tauto).
  split; [exact H|].
  apply (proj1 (create_record_recursive_ignore_members "t" None "p" "s" None
                  (Some payload_skip) []) _ _ H).
Defined.

(** Ignoring more keys takes records away and does nothing else: when
    flattening returns under an ignore list, it returns under any list that
    holds the keys of that one, and what it returns then is the first list
    of records with some of them left out, the others unchanged and in
    their order. *)
Theorem flatten_ignore_more
    (ts : string) (corr : option string) (publisher subject : string)
    (measurement_of_prefix : option string)
    (ks1 ks2 : list string) (payload : option pydict) (rs1 : list atomic_record) :
  incl ks1 ks2 ->
  flatten ts corr publisher subject (Some ks1) measurement_of_prefix payload = Ok rs1 ->
  exists rs2,
    flatten ts corr publisher subject (Some ks2) measurement_of_prefix payload = Ok rs2 /\
    subseq rs2 rs1.
Proof.
  intros Hincl H. apply flatten_Ok in H. destruct H as [Hf ->].
  pose proof (leaves_subseq (Some ks1) (Some ks2) (payload_items payload)
                (not_ignored_incl ks1 ks2 Hincl)) as Hs.
  assert (Hf2 : failure (leaves (Some ks2) (payload_items payload)) = None).
  { apply failure_none. apply (subseq_Forall _ _ _ Hs). apply failure_none, Hf. }
  eexists. split.
  - rewrite flatten_run, Hf2. reflexivity.
  - apply emitted_subseq; assumption.
Qed.

Lemma flatten_ignore_more_witness :
  incl ["skip"] ["skip"; "n"] /\
  exists rs2,
    flatten "t" None "p" "s" (Some ["skip"; "n"]) None (Some payload_skip) = Ok rs2 /\
    subseq rs2 [create_atomic_record "t" "s" "p" "a" (VInt 1) NUMBER None;
                create_atomic_record "t" "s" "p" "c" (VStr "x") STRING None].
Proof.
  assert (H : incl ["skip"] ["skip"; "n"])
    by (intros k Hk; cbn in *; tauto).
  split; [exact H|].
  apply (flatten_ignore_more "t" None "p" "s" None ["skip"] ["skip"; "n"]
           (Some payload_skip) _ H).
  reflexivity.
Defined.

(** The prefix changes the names and nothing else: flattening with the
    prefix [p] raises what flattening with no prefix raises, and returns
    the records that it returns, each under the name [p], an underscore and
    its name, with the same value, type and metadata and in the same
    order. *)
Theorem flatten_prefix_renames
    (ts : string) (corr : option string) (publisher subject : string)
    (ignore_keys : option (list string)) (p : string) (payload : option pydict) :
  flatten ts corr publisher subject ignore_keys (Some p) payload =
  match flatten ts corr publisher subject ignore_keys None payload with
  | Ok rs => Ok (map (with_prefix p) rs)
  | Raise e => Raise e
  end.
Proof.
  rewrite !flatten_run, emitted_with_prefix.
  destruct (failure _); reflexivity.
Qed.

(** Whether the call returns or raises, the list holds afterwards what it
    held before, unchanged and at the front, followed by records that each
    carry the metadata of the call and the type of their own value. *)
Theorem create_record_recursive_keeps_records
    (ts : string) (corr : option string) (publisher subject : string)
    (ignore_keys : option (list string)) (measurement_of_prefix : option string)
    (payload : option pydict) (records : list atomic_record) :
  exists new,
    snd (create_record_recursive ts corr publisher subject ignore_keys
           measurement_of_prefix payload records) = records ++ new /\
    Forall (fun r => timestamp r = ts /\
                     measurement_publisher r = publisher /\
                     measurement_subject r = subject /\
                     correlation_id r = corr) new /\
    Forall (fun r => exists t,
              get_record_type (measurement_value r) = Ok t /\
              measurement_data_type r = value t) new.
Proof.
  rewrite create_record_recursive_run. cbn [snd].
  eexists. split; [reflexivity|]. split.
  - apply emitted_metadata.
  - apply emitted_typed.
Qed.

(** When every key of the payload is in the ignore list, the call returns
    the list as it was and raises nothing, whatever the values are. *)
Theorem create_record_recursive_all_ignored
    (ts : string) (corr : option string) (publisher subject : string)
    (ks : list string) (measurement_of_prefix : option string)
    (d : pydict) (records : list atomic_record) :
  Forall (fun kv => In (fst kv) ks) d ->
  create_record_recursive ts corr publisher subject (Some ks) measurement_of_prefix
    (Some d) records = (Ok records, records).
Proof.
  intros H. rewrite create_record_recursive_run. cbn [payload_items].
  assert (Hl : leaves (Some ks) d = []).
  { induction H as [|[k v] d Hk _ IH]; [reflexivity|].
    rewrite leaves_cons, IH, (not_ignored_In ks k Hk). reflexivity. }
  rewrite Hl. cbn. rewrite app_nil_r. reflexivity.
Qed.

Lemma create_record_recursive_all_ignored_witness :
  Forall (fun kv => In (fst kv) ["b"; "a"]) payload_a_none /\
  create_record_recursive "t" None "p" "s" (Some ["b"; "a"]) None
    (Some payload_a_none) [old_record] = (Ok [old_record], [old_record]).
Proof.
  assert (H : Forall (fun kv => In (fst kv) ["b"; "a"]) payload_a_none)
    by (repeat constructor; cbn; tauto).
  split; [exact H|].
  apply (create_record_recursive_all_ignored "t" None "p" "s" ["b"; "a"] None
           payload_a_none [old_record] H).
Defined.
